(** * CircuitMind schematic analyzer: classification / extraction pipeline

    A shallow embedding of the page classifier, the schematic extractor
    (src/services/geminiService.ts), the PDF rasterizer adapter
    (src/services/pdfService.ts), the orchestrator (src/App.tsx,
    [handleFileSelected]) and the bill-of-materials editor
    (src/components/ComponentList.tsx), with the properties that the design
    document states about them.

    Conventions.
    - JavaScript strings are [string]s (their UTF-8 bytes); every keyword the
      code searches for is ASCII, so a substring test on bytes and one on
      UTF-16 code units agree.
    - Values produced by [JSON.parse] are [json] trees; an object is the
      ordered list of its (key, value) properties.
    - The asynchronous functions run one after the other (every call is
      awaited), so they are state transformers over the [World]: the log of
      requests sent to the inference backend and the number of identifiers
      drawn from [crypto.randomUUID].
    - A thrown value is an [exn]: [undefined], [null], or any other value,
      of which only the [message] is ever read.
    - A number that is an integer is a [Z]; where the code adds to a number
      that a reply carries, the sum is rounded as a double is.  A list
      stands for an array, which has fewer than 2^32 elements. *)

From Stdlib Require Import ZArith QArith Ascii String Sorted.
From stdpp Require Import list strings pretty.

Local Open Scope string_scope.
Local Open Scope Z_scope.
Local Open Scope list_scope.
Local Set Warnings "-register-all".

(** ** JavaScript values *)

Inductive json : Type :=
| JNull
| JBool (b : bool)
| JNum (q : Q)
| JStr (s : string)
| JArr (items : list json)
| JObj (props : list (string * json)).

(** A thrown value.  [Error message] is any value other than [undefined]
    and [null]: [message] is the string that [err.message] reads, empty
    when the value has no such property (the code reads it only as
    [err.message || fallback], where both count the same); a message that
    is not a string is not modelled.  Reading a property of a thrown
    [undefined] or [null] throws in its turn. *)
Inductive exn : Type :=
| Error (message : string)
| Thrown_undefined
| Thrown_null.

(** Messages of the [TypeError]s raised by the engine (V8 wording). *)
Definition TypeError_read (base prop : string) : exn :=
  Error ("Cannot read properties of " +:+ base +:+ " (reading '" +:+ prop +:+ "')").
Definition TypeError_not_function (what : string) : exn :=
  Error (what +:+ " is not a function").

(** [obj[k]] on the property list of an object. *)
Fixpoint obj_get (k : string) (props : list (string * json)) : option json :=
  match props with
  | [] => None
  | (k', v) :: rest => if String.eqb k k' then Some v else obj_get k rest
  end.

(** [obj[k] = v]: overwrite in place, or append a new property. *)
Fixpoint obj_set (k : string) (v : json) (props : list (string * json))
  : list (string * json) :=
  match props with
  | [] => [(k, v)]
  | (k', v') :: rest =>
      if String.eqb k k' then (k', v) :: rest else (k', v') :: obj_set k v rest
  end.

(** Property read [v.k] on a value that is not [null]: only objects carry
    the data properties the pipeline reads. *)
Definition get (k : string) (v : json) : option json :=
  match v with
  | JObj props => obj_get k props
  | _ => None
  end.

(** Truthiness of a value; an absent property ([undefined]) is falsy. *)
Definition truthy (v : json) : bool :=
  match v with
  | JNull => false
  | JBool b => b
  | JNum q => negb (Qeq_bool q 0)
  | JStr s => negb (String.eqb s "")
  | JArr _ => true
  | JObj _ => true
  end.

Definition truthy_opt (o : option json) : bool :=
  match o with
  | Some v => truthy v
  | None => false
  end.

(** ** Numbers *)

(** The double nearest to the integer [x], ties going to the even
    significand of 53 bits.  (Integers of magnitude 2^1024 and more have no
    nearest double; they are left out by [is_double].) *)
Definition double_round (x : Z) : Z :=
  let a := Z.abs x in
  if a <? 2 ^ 53 then x
  else
    let ulp := 2 ^ (Z.log2 a - 52) in
    let q := a / ulp in
    let r := a mod ulp in
    let q' := if 2 * r <? ulp then q
              else if ulp <? 2 * r then q + 1
              else if Z.even q then q else q + 1 in
    Z.sgn x * (q' * ulp).


(** [idx + i] for a number [idx] that is an integer and an offset [i] into
    an array: the sum is exact as long as it stays below 2^53 in magnitude,
    which it does for every offset when [idx] is at most 2^53 - 2^32 in
    magnitude, and is rounded to the nearest double otherwise. *)
Definition js_shift (idx : Z) (i : nat) : Z :=
  if Z.abs idx <=? 2 ^ 53 - 2 ^ 32 then idx + Z.of_nat i
  else double_round (idx + Z.of_nat i).

(** ** Strings *)

(** [s.includes(kw)] *)
Fixpoint includes (s kw : string) : bool :=
  if String.prefix kw s then true
  else match s with
       | EmptyString => false
       | String _ rest => includes rest kw
       end.

Definition is_upper (c : ascii) : bool :=
  let n := N_of_ascii c in (65 <=? n)%N && (n <=? 90)%N.

Definition is_ascii_char (c : ascii) : bool := (N_of_ascii c <? 128)%N.

Definition lower_char (c : ascii) : ascii :=
  if is_upper c then ascii_of_N (N_of_ascii c + 32) else c.

(** The case mapping of [String.prototype.toLowerCase] on ASCII text. *)
Fixpoint lower_ascii (s : string) : string :=
  match s with
  | EmptyString => EmptyString
  | String c rest => String (lower_char c) (lower_ascii rest)
  end.

Fixpoint is_ascii (s : string) : bool :=
  match s with
  | EmptyString => true
  | String c rest => is_ascii_char c && is_ascii rest
  end.

(** [s.split(',')[1]]: the text between the first and the second comma,
    [None] ([undefined]) when [s] has no comma. *)
Fixpoint until_comma (s : string) : string :=
  match s with
  | EmptyString => EmptyString
  | String c rest => if Ascii.eqb c "," then EmptyString else String c (until_comma rest)
  end.

Fixpoint split_comma_1 (s : string) : option string :=
  match s with
  | EmptyString => None
  | String c rest => if Ascii.eqb c "," then Some (until_comma rest) else split_comma_1 rest
  end.

(** ** The backend and the world *)

(** What one [ai.models.generateContent] request carries (the instruction
    text is fixed by the caller and left out). *)
Inductive Call : Type :=
| ClassifyCall (model : string) (data : list (option string))
| ExtractCall (model : string) (data : string).

Record World : Type := mkWorld {
  calls : list Call;      (* requests sent so far, oldest first *)
  uuids : nat             (* identifiers drawn from crypto.randomUUID *)
}.

Definition world0 : World := mkWorld [] 0.

(** Outcome of one classification request, as far as
    [detectSchematicPages] can tell them apart.  [BatchIndices indices]
    is a response whose text parses to a value with an array [indices];
    the list holds, element by element, the number that [idx + i] adds to
    the offset: the element itself when it is an integer, 0 for [null] and
    [false], 1 for [true].  (The response schema asks for integers, but
    nothing in the code checks the elements.) *)
Inductive BatchReply : Type :=
| BatchRejected (e : exn)       (* generateContent rejects *)
| BatchNoText                   (* response.text is undefined or empty *)
| BatchBadJson (e : exn)        (* JSON.parse(response.text) throws *)
| BatchNoIndices (e : exn)      (* parsed, but result.indices.map throws *)
| BatchIndices (indices : list Z).




(** Outcome of one extraction request. *)
Inductive Reply : Type :=
| Rejected (e : exn)            (* generateContent rejects *)
| NoText                        (* response.text is undefined or empty *)
| BadJson (e : exn)             (* JSON.parse(response.text) throws *)
| Parsed (v : json).            (* JSON.parse(response.text) returns v *)

(** ** types.ts and the state of the App component *)

Module Status.
Inductive t : Type := idle | rendering_pdf | filtering | analyzing | complete | error.
End Status.

Record PageResult : Type := mkPageResult {
  id : string;
  pageNumber : Z;
  image : string;
  analysis : json
}.

Record AppState : Type := mkAppState {
  status : Status.t;
  loadingMessage : string;
  error : option string;
  currentProjectName : string;
  currentProjectId : option string;
  pages : list PageResult;
  activePageIndex : nat;
  selectedComponent : option string
}.

Definition setStatus (v : Status.t) (s : AppState) : AppState :=
  mkAppState v (loadingMessage s) (error s) (currentProjectName s)
             (currentProjectId s) (pages s) (activePageIndex s) (selectedComponent s).
Definition setLoadingMessage (v : string) (s : AppState) : AppState :=
  mkAppState (status s) v (error s) (currentProjectName s)
             (currentProjectId s) (pages s) (activePageIndex s) (selectedComponent s).
Definition setError (v : option string) (s : AppState) : AppState :=
  mkAppState (status s) (loadingMessage s) v (currentProjectName s)
             (currentProjectId s) (pages s) (activePageIndex s) (selectedComponent s).
Definition setCurrentProjectName (v : string) (s : AppState) : AppState :=
  mkAppState (status s) (loadingMessage s) (error s) v
             (currentProjectId s) (pages s) (activePageIndex s) (selectedComponent s).
Definition setCurrentProjectId (v : option string) (s : AppState) : AppState :=
  mkAppState (status s) (loadingMessage s) (error s) (currentProjectName s)
             v (pages s) (activePageIndex s) (selectedComponent s).
Definition setPages (v : list PageResult) (s : AppState) : AppState :=
  mkAppState (status s) (loadingMessage s) (error s) (currentProjectName s)
             (currentProjectId s) v (activePageIndex s) (selectedComponent s).
Definition setActivePageIndex (v : nat) (s : AppState) : AppState :=
  mkAppState (status s) (loadingMessage s) (error s) (currentProjectName s)
             (currentProjectId s) (pages s) v (selectedComponent s).
Definition setSelectedComponent (v : option string) (s : AppState) : AppState :=
  mkAppState (status s) (loadingMessage s) (error s) (currentProjectName s)
             (currentProjectId s) (pages s) (activePageIndex s) v.

(** ** The uploaded file, as the browser and pdf.js present it *)

(** What rendering one page of a PDF gives: an exception from [getPage] or
    [render], no 2d canvas context, or the JPEG data URL of the page. *)
Inductive PageRender : Type :=
| RenderThrows (e : exn)
| NoContext
| Rendered (dataURL : string).

Record File : Type := mkFile {
  name : string;
  type : string;                       (* the MIME type *)
  pdf : exn + list PageRender;         (* pdfjsLib.getDocument: failure, or the pages *)
  dataURL : string                     (* FileReader.readAsDataURL *)
}.

(** ** A state and exception monad *)

Definition M (S A : Type) : Type := S -> (exn + A) * S.

Definition ret {S A} (a : A) : M S A := fun s => (inr a, s).
Definition throw {S A} (e : exn) : M S A := fun s => (inl e, s).
Definition bind {S A B} (m : M S A) (k : A -> M S B) : M S B :=
  fun s => match m s with
           | (inr a, s') => k a s'
           | (inl e, s') => (inl e, s')
           end.
Definition try_catch {S A} (m : M S A) (handler : exn -> M S A) : M S A :=
  fun s => match m s with
           | (inr a, s') => (inr a, s')
           | (inl e, s') => handler e s'
           end.

Notation "x <- m ;; k" := (bind m (fun x => k))
  (at level 100, m at next level, right associativity).
Notation "m ;;; k" := (bind m (fun _ => k))
  (at level 100, right associativity).

Section Pipeline.

(** [String.prototype.toLowerCase].  Its full Unicode case mapping is left
    open; where a property needs it, it is assumed to be [lower_ascii] on
    ASCII text. *)
Variable toLowerCase : string -> string.

(** The inference backend: the reply to the request that is sent when
    [k] requests have been sent before it. *)
Variable classifyReply : nat -> BatchReply.
Variable extractReply : nat -> Reply.

(** [crypto.randomUUID()], by the number of identifiers drawn before. *)
Variable randomUUID : nat -> string.

(** ** geminiService.ts *)

Definition mapTypeToIcon (type : string) : string :=
  let t := toLowerCase type in
  if includes t "resistor" then "resistor"
  else if includes t "cap" then "capacitor"
  else if includes t "induct" || includes t "coil" then "inductor"
  else if includes t "diode" || includes t "led" || includes t "rectifier" then "diode"
  else if includes t "transistor" || includes t "fet" || includes t "bjt"
          || includes t "igbt" then "transistor"
  else if includes t "ic" || includes t "chip" || includes t "processor"
          || includes t "controller" || includes t "op-amp" || includes t "opamp"
       then "chip"
  else if includes t "switch" || includes t "button" || includes t "relay" then "switch"
  else if includes t "conn" || includes t "head" || includes t "jack"
          || includes t "plug" || includes t "socket" then "connector"
  else if includes t "gnd" || includes t "ground" then "ground"
  else if includes t "volt" || includes t "sourc" || includes t "batt"
          || includes t "cell" || includes t "pwr" || includes t "vcc" then "power"
  else "generic".

(** One classification request: its reply is decided by the number of
    requests sent before it, and the request is appended to the log. *)
Definition generateContent_classify (batch : list string) : M World BatchReply :=
  fun w =>
    (inr (classifyReply (length (calls w))),
     mkWorld (calls w ++ [ClassifyCall "gemini-2.5-flash" (map split_comma_1 batch)])
             (uuids w)).

Definition generateContent_extract (cleanBase64 : string) : M World Reply :=
  fun w =>
    (inr (extractReply (length (calls w))),
     mkWorld (calls w ++ [ExtractCall "gemini-3-pro-preview" cleanBase64]) (uuids w)).

Definition BATCH_SIZE : nat := 5.

(** The body of the [for] loop of [detectSchematicPages] for the batch that
    starts at [i]: the [try] block pushes the shifted indices, the [catch]
    block only logs a warning. *)
Definition detect_batch (images : list string) (i : nat) (validIndices : list Z)
  : M World (list Z) :=
  let batch := take BATCH_SIZE (drop i images) in
  try_catch
    (response <- generateContent_classify batch ;;
     match response with
     | BatchRejected e => throw e
     | BatchNoText => ret validIndices
     | BatchBadJson e => throw e
     | BatchNoIndices e => throw e
     | BatchIndices indices =>
         let globalIndices := map (fun idx => js_shift idx i) indices in
         ret (validIndices ++ globalIndices)
     end)
    (fun _ => ret validIndices).

Definition out_of_fuel : exn := Error "out of fuel".

(** [for (let i = 0; i < images.length; i += BATCH_SIZE)], entered at [i].
    The loop is driven by [fuel]; one unit per iteration. *)
Fixpoint detect_loop (fuel : nat) (images : list string) (i : nat)
    (validIndices : list Z) : M World (list Z) :=
  if (i <? length images)%nat then
    match fuel with
    | O => throw out_of_fuel
    | S fuel' =>
        validIndices' <- detect_batch images i validIndices ;;
        detect_loop fuel' images (i + BATCH_SIZE)%nat validIndices'
    end
  else ret validIndices.

Definition detectSchematicPages (images : list string) : M World (list Z) :=
  if (length images =? 1)%nat then ret [0]
  else detect_loop (length images) images 0%nat [].

(** [{ ...c, icon: mapTypeToIcon(c.type) }] for one element of
    [analysis.components]. *)
Definition with_icon (c : json) : exn + json :=
  match c with
  | JNull => inl (TypeError_read "null" "type")
  | JObj props =>
      match obj_get "type" props with
      | Some (JStr type) => inr (JObj (obj_set "icon" (JStr (mapTypeToIcon type)) props))
      | Some JNull => inl (TypeError_read "null" "toLowerCase")
      | Some _ => inl (TypeError_not_function "type.toLowerCase")
      | None => inl (TypeError_read "undefined" "toLowerCase")
      end
  | _ => inl (TypeError_read "undefined" "toLowerCase")
  end.

(** [components.map(c => ...)]: the first element that throws ends the map. *)
Fixpoint map_with_icon (components : list json) : exn + list json :=
  match components with
  | [] => inr []
  | c :: rest =>
      match with_icon c with
      | inl e => inl e
      | inr c' =>
          match map_with_icon rest with
          | inl e => inl e
          | inr rest' => inr (c' :: rest')
          end
      end
  end.

(** [if (!analysis.netlist) analysis.netlist = []] *)
Definition backfill_netlist (props : list (string * json)) : list (string * json) :=
  if negb (truthy_opt (obj_get "netlist" props)) then obj_set "netlist" (JArr []) props
  else props.

(** The statements of [analyzeSchematicImage] that follow
    [JSON.parse(response.text)]. *)
Definition post_process (analysis : json) : exn + json :=
  match analysis with
  | JNull => inl (TypeError_read "null" "components")
  | JObj props =>
      match obj_get "components" props with
      | Some (JArr components) =>
          match map_with_icon components with
          | inl e => inl e
          | inr components' =>
              inr (JObj (backfill_netlist (obj_set "components" (JArr components') props)))
          end
      | Some JNull => inl (TypeError_read "null" "map")
      | Some _ => inl (TypeError_not_function "analysis.components.map")
      | None => inl (TypeError_read "undefined" "map")
      end
  | _ => inl (TypeError_read "undefined" "map")
  end.

(** [base64Image.split(',')[1] || base64Image] *)
Definition cleanBase64 (base64Image : string) : string :=
  match split_comma_1 base64Image with
  | Some data => if String.eqb data "" then base64Image else data
  | None => base64Image
  end.

Definition of_result {S A} (r : exn + A) : M S A :=
  match r with
  | inl e => throw e
  | inr a => ret a
  end.

(** The [catch] block logs the error and rethrows it. *)
Definition analyzeSchematicImage (base64Image : string) : M World json :=
  try_catch
    (response <- generateContent_extract (cleanBase64 base64Image) ;;
     match response with
     | Rejected e => throw e
     | NoText => throw (Error "No response text generated")
     | BadJson e => throw e
     | Parsed analysis => of_result (post_process analysis)
     end)
    (fun error => throw error).


(** ** pdfService.ts *)

Fixpoint render_pages (todo : list PageRender) (images : list string)
  : exn + list string :=
  match todo with
  | [] => inr images
  | RenderThrows e :: _ => inl e
  | NoContext :: rest => render_pages rest images
  | Rendered base64 :: rest => render_pages rest (images ++ [base64])
  end.

Definition convertPdfToImages (file : File) : exn + list string :=
  match pdf file with
  | inl e => inl e
  | inr doc =>
      let numPages := length doc in
      let pagesToProcess := Nat.min numPages 20 in
      render_pages (take pagesToProcess doc) []
  end.

(** ** App.tsx *)

Definition Sys : Type := AppState * World.

Definition app (f : AppState -> AppState) : M Sys unit :=
  fun sys => (inr tt, (f (fst sys), snd sys)).

Definition io {A} (m : M World A) : M Sys A :=
  fun sys => let (r, w') := m (snd sys) in (r, (fst sys, w')).

Definition crypto_randomUUID : M World string :=
  fun w => (inr (randomUUID (uuids w)), mkWorld (calls w) (S (uuids w))).

(** [setAnalysisUpdate(null, null)] returns at once. *)
Definition reset (s : AppState) : AppState :=
  setCurrentProjectName ""
    (setCurrentProjectId None
      (setLoadingMessage ""
        (setStatus Status.idle
          (setActivePageIndex 0%nat
            (setPages [] s))))).

(** [name.replace(/\.[^/.]+$/, empty)]: cut a final extension. *)
Fixpoint no_dot_slash (s : string) : bool :=
  match s with
  | EmptyString => true
  | String c rest => negb (Ascii.eqb c ".") && negb (Ascii.eqb c "/") && no_dot_slash rest
  end.

Fixpoint strip_extension (s : string) : string :=
  match s with
  | EmptyString => EmptyString
  | String c rest =>
      if Ascii.eqb c "." && negb (String.eqb rest "") && no_dot_slash rest
      then EmptyString
      else String c (strip_extension rest)
  end.

(** [images[pageIdx]] for a number that is an integer. *)
Definition lookupZ (images : list string) (pageIdx : Z) : option string :=
  if pageIdx <? 0 then None else images !! Z.to_nat pageIdx.

(** [a || b] on strings *)
Definition or_else (a b : string) : string :=
  if String.eqb a "" then b else a.

(** The first statements of the [try] block: the page images of the file. *)
Definition loadImages (file : File) : M Sys (list string) :=
  if String.eqb (type file) "application/pdf" then
    app (setStatus Status.rendering_pdf) ;;;
    app (setLoadingMessage "Reading PDF Manual...") ;;;
    of_result (convertPdfToImages file)
  else
    ret [dataURL file].

(** [for (let i = 0; i < schematicIndices.length; i++)], entered at [i]
    with [rest] the elements of [schematicIndices] from [i] on.  When
    [images[pageIdx]] is [undefined], [analyzeSchematicImage] throws at
    [base64Image.split], inside its own [try], and rethrows. *)
Fixpoint analyze_loop (images : list string) (total : nat) (rest : list Z) (i : nat)
    (results : list PageResult) : M Sys (list PageResult) :=
  match rest with
  | [] => ret results
  | pageIdx :: rest' =>
      app (setLoadingMessage
             ("Analyzing Page " +:+ pretty (pageIdx + 1) +:+ " (" +:+ pretty (i + 1)%nat
              +:+ "/" +:+ pretty total +:+ ")...")) ;;;
      match lookupZ images pageIdx with
      | None => throw (TypeError_read "undefined" "split")
      | Some imageData =>
          analysis <- io (analyzeSchematicImage imageData) ;;
          id <- io crypto_randomUUID ;;
          analyze_loop images total rest' (S i)
            (results ++ [mkPageResult id (pageIdx + 1) imageData analysis])
      end
  end.

Definition no_schematics : exn :=
  Error "No schematics or wiring diagrams detected in this file.".

(** [handleFileSelected].  The [catch] block reads [err.message] before it
    sets anything: on a thrown [undefined] or [null] that read throws, and
    the function is left with the state as the [try] block left it. *)
Definition handleFileSelected (file : File) : M Sys unit :=
  app reset ;;;
  app (setError None) ;;;
  app (setSelectedComponent None) ;;;
  app (setCurrentProjectName (strip_extension (name file))) ;;;
  try_catch
    (images <- loadImages file ;;
     app (setStatus Status.filtering) ;;;
     app (setLoadingMessage "Scanning for schematics...") ;;;
     schematicIndices <- io (detectSchematicPages images) ;;
     (if (length schematicIndices =? 0)%nat then throw no_schematics else ret tt) ;;;
     app (setStatus Status.analyzing) ;;;
     app (setLoadingMessage
            ("Analyzing " +:+ pretty (length schematicIndices) +:+ " schematic page(s)...")) ;;;
     results <- analyze_loop images (length schematicIndices) schematicIndices 0%nat [] ;;
     app (setPages results) ;;;
     app (setActivePageIndex 0%nat) ;;;
     app (setStatus Status.complete))
    (fun err =>
       match err with
       | Error message =>
           app (setError (Some (or_else message "Failed to process file."))) ;;;
           app (setStatus Status.error)
       | Thrown_undefined => throw (TypeError_read "undefined" "message")
       | Thrown_null => throw (TypeError_read "null" "message")
       end).

(** ** ComponentList.tsx *)

(** A component is an object; [component] is its property list. *)
Definition component : Type := list (string * json).

(** [newComponents[index] = { ...newComponents[index], [field]: value }] for
    the row [index] of the table.  [None]: [index] is not a row; JavaScript
    would grow the array with empty slots, which no row of the table asks
    for and which is left out here. *)
Definition handleChange (components : list component) (index : nat)
    (field value : string) : option (list component) :=
  match components !! index with
  | Some c => Some (<[index := obj_set field (JStr value) c]> components)
  | None => None
  end.

Fixpoint filter_index {A} (keep : nat -> bool) (i : nat) (l : list A) : list A :=
  match l with
  | [] => []
  | x :: rest =>
      if keep i then x :: filter_index keep (S i) rest else filter_index keep (S i) rest
  end.

(** [components.filter((_, i) => i !== index)] *)
Definition handleDelete (components : list component) (index : nat) : list component :=
  filter_index (fun i => negb (i =? index)%nat) 0 components.

Definition handleAdd (components : list component) : list component :=
  let newComponent : component :=
    [ ("designator", JStr ("C" +:+ pretty (length components + 1)%nat));
      ("type", JStr "Unknown");
      ("value", JStr "?");
      ("notes", JStr "");
      ("icon", JStr "generic") ] in
  components ++ [newComponent].

(** ** Notions used to state the properties *)


(** Number of batches of a document of [n] page images. *)
Definition batch_count (n : nat) : nat := ((n + (BATCH_SIZE - 1)) / BATCH_SIZE)%nat.

(** The images of batch number [j]. *)
Definition batch_at (images : list string) (j : nat) : list string :=
  take BATCH_SIZE (drop (j * BATCH_SIZE) images).

Definition classify_call (images : list string) (j : nat) : Call :=
  ClassifyCall "gemini-2.5-flash" (map split_comma_1 (batch_at images j)).


(** The global indices that the batch starting at [start] adds. *)
Definition contribution (r : BatchReply) (start : nat) : list Z :=
  match r with
  | BatchIndices indices => map (fun idx => js_shift idx start) indices
  | _ => []
  end.


(** [c.designator] *)
Definition designator (c : component) : option json := obj_get "designator" c.

(** No two components of the list have the same designator. *)
Definition designators_unique (components : list component) : Prop :=
  NoDup (map designator components).

(** The page images that the [try] block of [handleFileSelected] starts from. *)
Definition readImages (file : File) : exn + list string :=
  if String.eqb (type file) "application/pdf" then convertPdfToImages file
  else inr [dataURL file].


(** The page results for the indices [rest], extracted one after the
    other: the effect of the analysis loop on the world. *)
Fixpoint analyze_all (images : list string) (rest : list Z) : M World (list PageResult) :=
  match rest with
  | [] => ret []
  | pageIdx :: rest' =>
      match lookupZ images pageIdx with
      | None => throw (TypeError_read "undefined" "split")
      | Some imageData =>
          analysis <- analyzeSchematicImage imageData ;;
          id <- crypto_randomUUID ;;
          results <- analyze_all images rest' ;;
          ret (mkPageResult id (pageIdx + 1) imageData analysis :: results)
      end
  end.

(** The whole run, seen from the world. *)
Definition pipeline (file : File) : M World (list PageResult) :=
  images <- of_result (readImages file) ;;
  schematicIndices <- detectSchematicPages images ;;
  (if (length schematicIndices =? 0)%nat then throw no_schematics else ret tt) ;;;
  analyze_all images schematicIndices.



(** The elements of [analysis.components]. *)
Definition components_of (analysis : json) : list json :=
  match get "components" analysis with
  | Some (JArr components) => components
  | _ => []
  end.

(** [c.type] is a string. *)
Definition has_type (c : json) : bool :=
  match get "type" c with
  | Some (JStr _) => true
  | _ => false
  end.

(** [analysis.components] is an array and each element has a string [type]. *)
Definition components_typed (analysis : json) : bool :=
  match get "components" analysis with
  | Some (JArr components) => forallb has_type components
  | _ => false
  end.

End Pipeline.

(** ** Further notions, for the properties of the code around the pipeline *)

(** The data URLs of the pages of [doc] that have a 2d context. *)
Fixpoint page_images (doc : list PageRender) : list string :=
  match doc with
  | [] => []
  | Rendered base64 :: rest => base64 :: page_images rest
  | _ :: rest => page_images rest
  end.

(** The exception of the first page of [doc] whose rendering throws. *)
Fixpoint first_failure (doc : list PageRender) : option exn :=
  match doc with
  | [] => None
  | RenderThrows e :: _ => Some e
  | _ :: rest => first_failure rest
  end.

(** [s] has no comma. *)
Fixpoint no_comma (s : string) : bool :=
  match s with
  | EmptyString => true
  | String c rest => negb (Ascii.eqb c ",") && no_comma rest
  end.

(** The keys of [COMPONENT_ICONS] (ComponentList.tsx). *)
Definition COMPONENT_ICONS : list string :=
  [ "resistor"; "capacitor"; "inductor"; "diode"; "transistor"; "chip";
    "switch"; "connector"; "ground"; "power"; "generic" ].


(** What [handleFileSelected] returns, given what its [try] block returned
    or threw: the [catch] block throws when it reads the message of a
    thrown [undefined] or [null]. *)
Definition handler_outcome (outcome : exn + list PageResult) : exn + unit :=
  match outcome with
  | inl Thrown_undefined => inl (TypeError_read "undefined" "message")
  | inl Thrown_null => inl (TypeError_read "null" "message")
  | _ => inr tt
  end.

(** The status that a run on [file] has reached when its [try] block
    throws [undefined] or [null]: only the rasterizer and the extraction
    can throw them, the one under [rendering_pdf], the other under
    [analyzing]. *)
Definition stalled (file : File) : Status.t :=
  match readImages file with
  | inl _ => Status.rendering_pdf
  | inr _ => Status.analyzing
  end.

(** The state in which a run of [handleFileSelected] on a file called
    [name] leaves the component, given the last progress message, what
    the [try] block returned or threw, and the status [stalled] it had
    reached when [undefined] or [null] was thrown. *)
Definition final_state (name : string) (stalled : Status.t) (progress : string)
    (outcome : exn + list PageResult) : AppState :=
  match outcome with
  | inr results =>
      mkAppState Status.complete progress None (strip_extension name) None results 0 None
  | inl (Error message) =>
      mkAppState Status.error progress
                 (Some (or_else message "Failed to process file."))
                 (strip_extension name) None [] 0 None
  | inl _ =>
      mkAppState stalled progress None (strip_extension name) None [] 0 None
  end.

(** ** Sample documents and backends *)

Definition sample_images : list string :=
  [ "data:image/jpeg;base64,PAGE0"; "data:image/jpeg;base64,PAGE1";
    "data:image/jpeg;base64,PAGE2"; "data:image/jpeg;base64,PAGE3";
    "data:image/jpeg;base64,PAGE4"; "data:image/jpeg;base64,PAGE5";
    "data:image/jpeg;base64,PAGE6"; "data:image/jpeg;base64,PAGE7" ].

(** An eight-page manual and a single picture. *)
Definition sample_pdf : File :=
  mkFile "manual.v2.pdf" "application/pdf" (inr (map Rendered sample_images)) "".


Definition app0 : AppState :=
  mkAppState Status.idle "" None "" None [] 0 None.

Definition sample_uuid (n : nat) : string := "uuid-" +:+ pretty n.

(** A response that has every field of the schema. *)
Definition sample_analysis : json :=
  JObj [ ("title", JStr "Voltage follower");
         ("overview", JStr "Buffers the divided input voltage");
         ("components",
          JArr [ JObj [ ("designator", JStr "R1"); ("type", JStr "10k Resistor");
                        ("value", JStr "10k"); ("notes", JStr "");
                        ("boundingBox", JArr [JNum (1 # 4); JNum (1 # 4);
                                              JNum (1 # 2); JNum (1 # 2)]) ];
                 JObj [ ("designator", JStr "U1"); ("type", JStr "Op-Amp");
                        ("value", JStr "LM358"); ("icon", JStr "generic") ] ]);
         ("functionalBlocks", JArr []);
         ("connectivityLogic", JStr "R1 feeds the non-inverting input of U1");
         ("netlist", JArr [ JObj [ ("id", JStr "GND");
                                   ("connectedPins", JArr [JStr "R1-2"]) ] ]);
         ("potentialIssues", JArr [JStr "No decoupling capacitor"]) ].

(** A response without [title], [netlist] and [potentialIssues]. *)
Definition sample_untitled : json :=
  JObj [ ("overview", JStr "Buffers the divided input voltage");
         ("components",
          JArr [ JObj [ ("designator", JStr "R1"); ("type", JStr "10k Resistor") ] ]);
         ("functionalBlocks", JArr []);
         ("connectivityLogic", JStr "R1 feeds the output") ].

(** A response without [components]. *)
Definition sample_no_components : json :=
  JObj [ ("title", JStr "Voltage follower");
         ("overview", JStr "Buffers the divided input voltage");
         ("functionalBlocks", JArr []);
         ("connectivityLogic", JStr "R1 feeds the output");
         ("netlist", JArr []) ].

Definition classify_ascending (k : nat) : BatchReply :=
  match k with
  | O => BatchIndices [1; 4]
  | _ => BatchIndices []
  end.



Definition classify_first_fails (k : nat) : BatchReply :=
  match k with
  | O => BatchRejected (Error "503 Service Unavailable")
  | _ => BatchIndices [2]
  end.

Definition classify_nothing (k : nat) : BatchReply := BatchIndices [].




Definition extract_ok (k : nat) : Reply := Parsed sample_analysis.




Definition sample_components : list component :=
  [ [ ("designator", JStr "C1"); ("type", JStr "Capacitor"); ("value", JStr "100nF") ];
    [ ("designator", JStr "C2"); ("type", JStr "Capacitor"); ("value", JStr "10uF") ] ].

(** A manual of 22 pages: page 9 has no canvas context and the rendering
    of page 21 throws. *)
Definition sample_first_20 : list PageRender :=
  map Rendered sample_images ++ [NoContext] ++ map Rendered sample_images
  ++ [Rendered "data:image/jpeg;base64,PAGE17"; Rendered "data:image/jpeg;base64,PAGE18";
      Rendered "data:image/jpeg;base64,PAGE19"].

Definition sample_after_20 : list PageRender :=
  [RenderThrows (Error "Rendering cancelled"); Rendered "data:image/jpeg;base64,PAGE21"].

Definition sample_manual_20 : File :=
  mkFile "manual-20.pdf" "application/pdf" (inr sample_first_20) "".

(** A file that pdf.js cannot open. *)
Definition sample_broken_pdf : File :=
  mkFile "broken.pdf" "application/pdf" (inl (Error "Invalid PDF structure")) "".

(** A PDF whose loading is rejected with [null]. *)
Definition sample_unloadable_pdf : File :=
  mkFile "unloadable.pdf" "application/pdf" (inl Thrown_null) "".

(** ** Properties *)

(** *** Strings *)

Lemma prefix_spec kw : forall s,
  String.prefix kw s = true <-> exists post, s = kw +:+ post.
Proof.
  induction kw as [|a kw IH]; intros s.
  - destruct s; cbn; (split; [intros _; eexists; reflexivity|reflexivity]).
  - destruct s as [|b s]; cbn.
    + split; [discriminate|]. intros [post H]. discriminate H.
    + destruct (ascii_dec a b) as [->|Hne].
      * rewrite IH. split; intros [post H]; exists post.
        -- rewrite H. reflexivity.
        -- cbn in H. injection H as H. exact H.
      * split; [discriminate|]. intros [post H]. cbn in H. injection H as H _.
        congruence.
Qed.

(** [includes] is the substring test. *)
Lemma includes_spec s kw :
  includes s kw = true <-> exists pre post, s = pre +:+ kw +:+ post.
Proof.
  induction s as [|c s IH]; cbn [includes].
  - destruct (String.prefix kw "") eqn:E.
    + split; [|reflexivity]. intros _. exists "". apply prefix_spec, E.
    + split; [discriminate|]. intros ([|? ?] & post & H); [|discriminate H].
      assert (String.prefix kw "" = true) by (apply prefix_spec; eauto). congruence.
  - destruct (String.prefix kw (String c s)) eqn:E.
    + split; [|reflexivity]. intros _. exists "". apply prefix_spec, E.
    + rewrite IH. split.
      * intros (pre & post & ->). exists (String c pre), post. reflexivity.
      * intros ([|c' pre] & post & H).
        -- assert (String.prefix kw (String c s) = true) by (apply prefix_spec; eauto).
           congruence.
        -- cbn in H. injection H as _ ->. eauto.
Qed.

Example lower_ascii_sample : lower_ascii "10k Resistor (R_1)" = "10k resistor (r_1)".
Proof. reflexivity. Qed.

Example strip_extension_samples :
  strip_extension "manual.v2.pdf" = "manual.v2" /\
  strip_extension "README" = "README" /\
  strip_extension "archive." = "archive." /\
  strip_extension "a.b/c" = "a.b/c".
Proof. repeat split. Qed.

Example missing_components_sample :
  fst (analyzeSchematicImage lower_ascii (fun _ => Parsed sample_no_components)
         "data:image/png;base64,BOARD" world0)
  = inl (TypeError_read "undefined" "map").
Proof. reflexivity. Qed.

Example cleanBase64_samples :
  cleanBase64 "data:image/png;base64,BOARD" = "BOARD" /\
  cleanBase64 "BOARD" = "BOARD" /\
  cleanBase64 "data:image/png;base64," = "data:image/png;base64,".
Proof. repeat split. Qed.

Section PipelineFacts.

Variable toLowerCase : string -> string.
Hypothesis toLowerCase_ascii :
  forall s, is_ascii s = true -> toLowerCase s = lower_ascii s.
Variable classifyReply : nat -> BatchReply.
Variable extractReply : nat -> Reply.
Variable randomUUID : nat -> string.

Lemma detect_batch_run images i acc w :
  detect_batch classifyReply images i acc w =
  (inr (acc ++ contribution (classifyReply (length (calls w))) i),
   mkWorld (calls w ++ [ClassifyCall "gemini-2.5-flash"
                          (map split_comma_1 (take BATCH_SIZE (drop i images)))])
           (uuids w)).
Proof.
  unfold detect_batch, try_catch, bind, generateContent_classify.
  destruct (classifyReply (length (calls w))); cbn; rewrite ?app_nil_r; reflexivity.
Qed.

Lemma batch_count_reached n : (n <= batch_count n * BATCH_SIZE)%nat.
Proof.
  unfold batch_count, BATCH_SIZE. cbn [Nat.sub].
  pose proof (Nat.div_mod_eq (n + 4) 5) as E.
  pose proof (Nat.mod_upper_bound (n + 4) 5). lia.
Qed.

Lemma batch_count_inside n j : (j < batch_count n)%nat -> (j * BATCH_SIZE < n)%nat.
Proof.
  unfold batch_count, BATCH_SIZE. cbn [Nat.sub]. intros Hj.
  pose proof (Nat.div_mod_eq (n + 4) 5) as E.
  pose proof (Nat.mod_upper_bound (n + 4) 5). lia.
Qed.

Lemma batch_count_le n : (batch_count n <= n)%nat.
Proof.
  destruct (batch_count n) as [|b] eqn:E; [lia|].
  assert (H : (b < batch_count n)%nat) by lia.
  apply batch_count_inside in H. unfold BATCH_SIZE in H. lia.
Qed.

Lemma flat_map_seq_S {A} (f : nat -> list A) a k :
  flat_map f (seq (S a) k) = flat_map (fun t => f (S t)) (seq a k).
Proof.
  revert a. induction k as [|k IH]; intros a; cbn; [reflexivity|].
  f_equal. apply IH.
Qed.

Lemma map_seq_S {A} (f : nat -> A) a k :
  map f (seq (S a) k) = map (fun t => f (S t)) (seq a k).
Proof.
  revert a. induction k as [|k IH]; intros a; cbn; [reflexivity|].
  f_equal. apply IH.
Qed.

Lemma detect_loop_run images k : forall fuel j acc w,
  (k <= fuel)%nat ->
  (j + k)%nat = batch_count (length images) ->
  detect_loop classifyReply fuel images (j * BATCH_SIZE) acc w =
  (inr (acc ++ flat_map (fun t => contribution (classifyReply (length (calls w) + t))
                                               ((j + t) * BATCH_SIZE))
                        (seq 0 k)),
   mkWorld (calls w ++ map (fun t => classify_call images (j + t)) (seq 0 k)) (uuids w)).
Proof.
  induction k as [|k IH]; intros fuel j acc w Hfuel Hj.
  - pose proof (batch_count_reached (length images)) as Hr.
    assert (Hlt : (j * BATCH_SIZE <? length images)%nat = false)
      by (apply Nat.ltb_ge; rewrite <- Hj in Hr; lia).
    destruct fuel; cbn [detect_loop]; rewrite Hlt; cbn;
      rewrite !app_nil_r; destruct w; reflexivity.
  - destruct fuel as [|fuel]; [lia|].
    assert (Hin : (j * BATCH_SIZE <? length images)%nat = true).
    { apply Nat.ltb_lt, batch_count_inside. lia. }
    cbn [detect_loop]. rewrite Hin. unfold bind at 1.
    rewrite detect_batch_run.
    replace (j * BATCH_SIZE + BATCH_SIZE)%nat with (S j * BATCH_SIZE)%nat by lia.
    rewrite (IH fuel (S j)) by lia. cbn [calls uuids].
    cbn [seq flat_map map]. rewrite flat_map_seq_S, map_seq_S.
    rewrite length_app. cbn [length]. rewrite !Nat.add_0_r, <- !app_assoc. cbn [app].
    f_equal; [f_equal; f_equal; f_equal|f_equal; f_equal; f_equal].
    + apply flat_map_ext. intros t. f_equal; [f_equal|]; lia.
    + apply map_ext. intros t. f_equal. lia.
Qed.

Lemma detectSchematicPages_run images w :
  length images <> 1%nat ->
  detectSchematicPages classifyReply images w =
  (inr (flat_map (fun j => contribution (classifyReply (length (calls w) + j))
                                        (j * BATCH_SIZE))
                 (seq 0 (batch_count (length images)))),
   mkWorld (calls w ++ map (classify_call images) (seq 0 (batch_count (length images))))
           (uuids w)).
Proof.
  intros Hn. unfold detectSchematicPages.
  destruct (Nat.eqb_spec (length images) 1) as [E|_]; [contradiction|].
  change 0%nat with (0 * BATCH_SIZE)%nat at 1.
  rewrite (detect_loop_run images (batch_count (length images))).
  - reflexivity.
  - apply batch_count_le.
  - reflexivity.
Qed.









(** On an array the shift is the sum of the two doubles. *)
Lemma js_shift_is_double_sum idx i :
  Z.of_nat i < 2 ^ 32 -> js_shift idx i = double_round (idx + Z.of_nat i).
Proof.
  intros Hi. unfold js_shift.
  destruct (Z.leb_spec (Z.abs idx) (2 ^ 53 - 2 ^ 32)) as [H|H]; [|reflexivity].
  unfold double_round.
  destruct (Z.ltb_spec (Z.abs (idx + Z.of_nat i)) (2 ^ 53)) as [H'|H']; [reflexivity|].
  exfalso. change (2 ^ 53) with 9007199254740992 in *.
  change (2 ^ 32) with 4294967296 in *. lia.
Qed.


(** C9: a document of exactly one page image is classified as [[0]], and
    the world is left as it was: no request is sent to the backend. *)
Theorem single_image_fast_path (img : string) (w : World) :
  detectSchematicPages classifyReply [img] w = (inr [0], w).
Proof. reflexivity. Qed.



(** *** The extractor *)

Lemma obj_get_set_eq k v props : obj_get k (obj_set k v props) = Some v.
Proof.
  induction props as [|[k' v'] props IH]; cbn.
  - rewrite String.eqb_refl. reflexivity.
  - destruct (String.eqb_spec k k') as [->|Hne]; cbn.
    + rewrite String.eqb_refl. reflexivity.
    + apply String.eqb_neq in Hne. rewrite Hne. exact IH.
Qed.

Lemma obj_get_set_ne k k' v props :
  k <> k' -> obj_get k' (obj_set k v props) = obj_get k' props.
Proof.
  intros Hne. induction props as [|[k0 v0] props IH]; cbn.
  - apply not_eq_sym, String.eqb_neq in Hne. rewrite Hne. reflexivity.
  - destruct (String.eqb_spec k k0) as [->|Hk]; cbn.
    + apply not_eq_sym, String.eqb_neq in Hne. rewrite Hne. reflexivity.
    + destruct (String.eqb k' k0); [reflexivity|exact IH].
Qed.

Lemma with_icon_inr c c' :
  with_icon toLowerCase c = inr c' ->
  exists props type,
    c = JObj props /\ obj_get "type" props = Some (JStr type) /\
    c' = JObj (obj_set "icon" (JStr (mapTypeToIcon toLowerCase type)) props).
Proof.
  unfold with_icon. intros H.
  destruct c as [| | | | |props]; try discriminate H.
  destruct (obj_get "type" props) as [[| | |type| |]|] eqn:E; try discriminate H.
  injection H as <-. exists props, type. auto.
Qed.

Lemma with_icon_typed c :
  has_type c = true <-> exists c', with_icon toLowerCase c = inr c'.
Proof.
  unfold has_type, with_icon, get. split.
  - destruct c as [| | | | |props]; try discriminate.
    destruct (obj_get "type" props) as [[| | |type| |]|]; try discriminate. eauto.
  - intros [c' H]. destruct c as [| | | | |props]; try discriminate.
    destruct (obj_get "type" props) as [[| | |type| |]|]; try discriminate. reflexivity.
Qed.

Lemma map_with_icon_inr cs : forall cs',
  map_with_icon toLowerCase cs = inr cs' ->
  Forall2 (fun c c' => with_icon toLowerCase c = inr c') cs cs'.
Proof.
  induction cs as [|c cs IH]; intros cs' H; cbn in H.
  - injection H as <-. constructor.
  - destruct (with_icon toLowerCase c) as [e|c1] eqn:Ec; [discriminate|].
    destruct (map_with_icon toLowerCase cs) as [e|cs1]; [discriminate|].
    injection H as <-. constructor; [exact Ec|apply IH; reflexivity].
Qed.

Lemma map_with_icon_typed cs :
  forallb has_type cs = true <-> exists cs', map_with_icon toLowerCase cs = inr cs'.
Proof.
  induction cs as [|c cs IH]; cbn.
  - split; eauto.
  - rewrite andb_true_iff, with_icon_typed, IH. split.
    + intros [[c' Hc] [cs' Hcs]]. rewrite Hc, Hcs. eauto.
    + intros [cs' H]. destruct (with_icon toLowerCase c) as [e|c1]; [discriminate|].
      destruct (map_with_icon toLowerCase cs) as [e|cs1]; [discriminate|]. eauto.
Qed.

Lemma post_process_inr analysis out :
  post_process toLowerCase analysis = inr out ->
  exists props cs cs',
    analysis = JObj props /\ obj_get "components" props = Some (JArr cs) /\
    map_with_icon toLowerCase cs = inr cs' /\
    out = JObj (backfill_netlist (obj_set "components" (JArr cs') props)).
Proof.
  unfold post_process. intros H.
  destruct analysis as [| | | | |props]; try discriminate H.
  destruct (obj_get "components" props) as [[| | | |cs|]|] eqn:E; try discriminate H.
  destruct (map_with_icon toLowerCase cs) as [e|cs'] eqn:Em; [discriminate|].
  injection H as <-. exists props, cs, cs'. auto.
Qed.

Lemma post_process_typed analysis :
  components_typed analysis = true <-> exists out, post_process toLowerCase analysis = inr out.
Proof.
  unfold components_typed, post_process, get. split.
  - destruct analysis as [| | | | |props]; try discriminate.
    destruct (obj_get "components" props) as [[| | | |cs|]|]; try discriminate.
    intros H. apply map_with_icon_typed in H as [cs' ->]. eauto.
  - intros [out H]. destruct analysis as [| | | | |props]; try discriminate.
    destruct (obj_get "components" props) as [[| | | |cs|]|]; try discriminate.
    apply map_with_icon_typed.
    destruct (map_with_icon toLowerCase cs) as [e|cs']; [discriminate|]. eauto.
Qed.

Lemma get_backfill_netlist_ne field props :
  field <> "netlist" -> obj_get field (backfill_netlist props) = obj_get field props.
Proof.
  intros Hne. unfold backfill_netlist.
  destruct (negb (truthy_opt (obj_get "netlist" props))); [|reflexivity].
  apply obj_get_set_ne. congruence.
Qed.

(** The request is logged and the reply decides the outcome; the [catch]
    block changes nothing. *)
Lemma analyzeSchematicImage_run base64Image w :
  analyzeSchematicImage toLowerCase extractReply base64Image w =
  (match extractReply (length (calls w)) with
   | Rejected e => inl e
   | NoText => inl (Error "No response text generated")
   | BadJson e => inl e
   | Parsed analysis => post_process toLowerCase analysis
   end,
   mkWorld (calls w ++ [ExtractCall "gemini-3-pro-preview" (cleanBase64 base64Image)])
           (uuids w)).
Proof.
  unfold analyzeSchematicImage, try_catch, bind, generateContent_extract.
  destruct (extractReply (length (calls w))) as [e| |e|analysis]; cbn; try reflexivity.
  destruct (post_process toLowerCase analysis); reflexivity.
Qed.


(** C2, as the code has it: the extractor does not check the required
    fields.  Its outcome on a parsed response is that of the
    post-processing, which succeeds exactly when [components] is an array
    whose elements each have a string [type]; so a response without
    [components] fails, while [title], [overview], [functionalBlocks],
    [connectivityLogic] and [potentialIssues] play no part: each is
    returned as it was parsed and stays absent when it was absent.  An
    absent [netlist] becomes the empty list. *)
Theorem extraction_required_fields (base64Image : string) (w : World) (analysis : json) :
  extractReply (length (calls w)) = Parsed analysis ->
  fst (analyzeSchematicImage toLowerCase extractReply base64Image w)
    = post_process toLowerCase analysis /\
  ((exists out, post_process toLowerCase analysis = inr out)
     <-> components_typed analysis = true) /\
  (get "components" analysis = None ->
     exists e, fst (analyzeSchematicImage toLowerCase extractReply base64Image w) = inl e) /\
  (forall out,
      post_process toLowerCase analysis = inr out ->
      (forall field,
          In field ["title"; "overview"; "functionalBlocks"; "connectivityLogic";
                    "potentialIssues"] ->
          get field out = get field analysis) /\
      (get "netlist" analysis = None -> get "netlist" out = Some (JArr []))).
Proof.
  intros Hreply.
  assert (Hrun : fst (analyzeSchematicImage toLowerCase extractReply base64Image w)
                 = post_process toLowerCase analysis).
  { rewrite analyzeSchematicImage_run, Hreply. reflexivity. }
  split; [exact Hrun|]. split; [symmetry; apply post_process_typed|]. split.
  - intros Habsent. rewrite Hrun.
    destruct (post_process toLowerCase analysis) as [e|out] eqn:E; [eauto|].
    apply post_process_inr in E as (props & cs & cs' & -> & Hcs & _).
    cbn in Habsent. congruence.
  - intros out Hpost.
    apply post_process_inr in Hpost as (props & cs & cs' & -> & Hcs & Hmap & ->).
    cbn [get]. split.
    + intros field Hfield.
      rewrite get_backfill_netlist_ne, obj_get_set_ne; [reflexivity| |];
        cbn in Hfield; intuition (subst; discriminate).
    + intros Hnet. unfold backfill_netlist.
      rewrite obj_get_set_ne by discriminate. rewrite Hnet. cbn.
      apply obj_get_set_eq.
Qed.

(** C10: post-processing of a parsed response touches the icons and
    nothing else: the component list keeps its length and order and each
    component keeps every property other than [icon] (designator, type,
    value, notes, boundingBox among them); every property of the analysis
    other than [components] and [netlist] is returned as parsed, and so is
    a netlist that is present (any truthy value, every array is one). *)
Theorem post_processing_frame (base64Image : string) (w w' : World) (analysis out : json) :
  extractReply (length (calls w)) = Parsed analysis ->
  analyzeSchematicImage toLowerCase extractReply base64Image w = (inr out, w') ->
  length (components_of out) = length (components_of analysis) /\
  (forall i c,
      components_of analysis !! i = Some c ->
      exists c',
        components_of out !! i = Some c' /\
        forall field, field <> "icon" -> get field c' = get field c) /\
  (forall field,
      field <> "components" -> field <> "netlist" -> get field out = get field analysis) /\
  (forall netlist,
      get "netlist" analysis = Some netlist -> truthy netlist = true ->
      get "netlist" out = Some netlist) /\
  (forall nets, get "netlist" analysis = Some (JArr nets) ->
                get "netlist" out = Some (JArr nets)).
Proof.
  intros Hreply Hrun. rewrite analyzeSchematicImage_run, Hreply in Hrun.
  injection Hrun as Hpost _.
  apply post_process_inr in Hpost as (props & cs & cs' & -> & Hcs & Hmap & ->).
  apply map_with_icon_inr in Hmap.
  assert (Hnet : forall netlist,
             obj_get "netlist" props = Some netlist -> truthy netlist = true ->
             obj_get "netlist" (backfill_netlist (obj_set "components" (JArr cs') props))
             = Some netlist).
  { intros netlist Hn Ht. unfold backfill_netlist.
    rewrite obj_get_set_ne by discriminate. rewrite Hn. cbn. rewrite Ht. cbn.
    rewrite obj_get_set_ne by discriminate. exact Hn. }
  unfold components_of. cbn [get].
  rewrite get_backfill_netlist_ne, obj_get_set_eq, Hcs by discriminate.
  split; [symmetry; eapply Forall2_length, Hmap|]. split; [|split; [|split]].
  - intros i c Hc.
    destruct (Forall2_lookup_l _ _ _ _ _ Hmap Hc) as (c' & Hc' & Hwith).
    exists c'. split; [exact Hc'|]. intros field Hfield.
    apply with_icon_inr in Hwith as (cprops & type & -> & _ & ->).
    cbn [get]. apply obj_get_set_ne. congruence.
  - intros field Hc Hn.
    rewrite get_backfill_netlist_ne, obj_get_set_ne; [reflexivity| |]; congruence.
  - exact Hnet.
  - intros nets Hn. apply Hnet; [exact Hn|reflexivity].
Qed.

(** *** The orchestrator *)

Lemma setLoadingMessage_twice m1 m2 s :
  setLoadingMessage m2 (setLoadingMessage m1 s) = setLoadingMessage m2 s.
Proof. reflexivity. Qed.

Lemma setLoadingMessage_same s : setLoadingMessage (loadingMessage s) s = s.
Proof. destruct s; reflexivity. Qed.

(** The analysis loop does to the world what [analyze_all] does, and to
    the state of the component nothing but progress messages. *)
Lemma analyze_loop_run images total rest : forall i results s w,
  exists m,
    analyze_loop toLowerCase extractReply randomUUID images total rest i results (s, w) =
    (match fst (analyze_all toLowerCase extractReply randomUUID images rest w) with
     | inl e => inl e
     | inr rs => inr (results ++ rs)
     end,
     (setLoadingMessage m s,
      snd (analyze_all toLowerCase extractReply randomUUID images rest w))).
Proof.
  induction rest as [|pageIdx rest IH]; intros i results s w.
  - exists (loadingMessage s). cbn. rewrite app_nil_r, setLoadingMessage_same. reflexivity.
  - cbn [analyze_loop analyze_all].
    unfold bind, io, app, crypto_randomUUID, throw, ret. cbv beta iota delta [fst snd].
    destruct (lookupZ images pageIdx) as [imageData|]; [|eexists; reflexivity].
    destruct (analyzeSchematicImage toLowerCase extractReply imageData w)
      as [[e|analysis] w1]; [eexists; reflexivity|].
    match goal with
    | |- context [analyze_loop _ _ _ _ _ _ ?i' ?r' (?s', ?w')] =>
        destruct (IH i' r' s' w') as [m Hm]; rewrite Hm
    end.
    exists m. rewrite setLoadingMessage_twice.
    destruct (analyze_all toLowerCase extractReply randomUUID images rest _)
      as [[e|rs] w2]; cbv beta iota delta [fst snd]; [reflexivity|].
    rewrite <- app_assoc. reflexivity.
Qed.

Lemma detectSchematicPages_never_throws images w :
  exists idxs w1, detectSchematicPages classifyReply images w = (inr idxs, w1).
Proof.
  destruct (Nat.eq_dec (length images) 1%nat) as [E1|Hn].
  - destruct images as [|img [|? ?]]; try discriminate E1. eexists _, _. reflexivity.
  - rewrite detectSchematicPages_run by exact Hn. eexists _, _. reflexivity.
Qed.

Ltac run_done :=
  try match goal with e : exn |- _ => destruct e end;
  cbv beta iota delta [fst snd];
  eexists; (split; [reflexivity|]); cbn; repeat split; reflexivity.

(** The state in which [handleFileSelected] leaves the component is
    decided by what the run does to the world: [complete] with the page
    results; [error] with the message of what was thrown and no page; or,
    when [undefined] or [null] was thrown, the status reached so far, no
    page and no error text, the handler throwing in its turn. *)
Lemma handleFileSelected_run file s w :
  exists s',
    handleFileSelected toLowerCase classifyReply extractReply randomUUID file (s, w)
    = (handler_outcome
         (fst (pipeline toLowerCase classifyReply extractReply randomUUID file w)),
       (s', snd (pipeline toLowerCase classifyReply extractReply randomUUID file w)))
    /\
    match fst (pipeline toLowerCase classifyReply extractReply randomUUID file w) with
    | inr results =>
        status s' = Status.complete /\ pages s' = results /\ error s' = None
    | inl (Error message) =>
        status s' = Status.error /\
        error s' = Some (or_else message "Failed to process file.") /\
        pages s' = []
    | inl _ =>
        status s' = stalled file /\ error s' = None /\ pages s' = []
    end.
Proof.
  unfold handleFileSelected, pipeline, loadImages, stalled, readImages.
  unfold try_catch, bind, io, app, throw, ret, of_result.
  cbv beta iota delta [fst snd].
  destruct (String.eqb (type file) "application/pdf").
  - destruct (convertPdfToImages file) as [e|images];
      cbv beta iota delta [fst snd throw ret]; [run_done|].
    destruct (detectSchematicPages_never_throws images w) as (idxs & w1 & ->).
    destruct (length idxs =? 0)%nat; [run_done|].
    match goal with
    | |- context [analyze_loop _ _ _ _ ?t ?r ?i ?res (?s', ?w')] =>
        destruct (analyze_loop_run images t r i res s' w') as [m Hm]; rewrite Hm
    end.
    destruct (analyze_all toLowerCase extractReply randomUUID images idxs w1)
      as [[e|rs] w2]; cbv beta iota delta [fst snd]; run_done.
  - cbv beta iota delta [fst snd throw ret].
    destruct (detectSchematicPages_never_throws [dataURL file] w) as (idxs & w1 & ->).
    destruct (length idxs =? 0)%nat; [run_done|].
    match goal with
    | |- context [analyze_loop _ _ _ _ ?t ?r ?i ?res (?s', ?w')] =>
        destruct (analyze_loop_run [dataURL file] t r i res s' w') as [m Hm]; rewrite Hm
    end.
    destruct (analyze_all toLowerCase extractReply randomUUID [dataURL file] idxs w1)
      as [[e|rs] w2]; cbv beta iota delta [fst snd]; run_done.
Qed.

Lemma pipeline_run file images idxs w w1 :
  readImages file = inr images ->
  detectSchematicPages classifyReply images w = (inr idxs, w1) ->
  pipeline toLowerCase classifyReply extractReply randomUUID file w =
  if (length idxs =? 0)%nat then (inl no_schematics, w1)
  else analyze_all toLowerCase extractReply randomUUID images idxs w1.
Proof.
  intros Hread Hdetect. unfold pipeline, bind, of_result. rewrite Hread.
  unfold ret at 1. rewrite Hdetect.
  destruct (length idxs =? 0)%nat; reflexivity.
Qed.



(** C7: when the classifier returns no index, the run ends in the error
    state with the message that no schematics were detected and keeps no
    page result; the world is left as the classifier left it, so no
    extraction request and no second classification is made. *)
Theorem no_schematics_is_terminal (file : File) (s : AppState) (w w1 : World)
    (images : list string) :
  readImages file = inr images ->
  detectSchematicPages classifyReply images w = (inr [], w1) ->
  exists s',
    handleFileSelected toLowerCase classifyReply extractReply randomUUID file (s, w)
    = (inr tt, (s', w1)) /\
    status s' = Status.error /\
    error s' = Some "No schematics or wiring diagrams detected in this file." /\
    pages s' = [].
Proof.
  intros Hread Hdetect.
  destruct (handleFileSelected_run file s w) as (s' & Hrun & Hfinal).
  rewrite (pipeline_run file images [] w w1 Hread Hdetect) in Hrun, Hfinal.
  cbn in Hrun, Hfinal. exists s'. split; [exact Hrun|exact Hfinal].
Qed.



End PipelineFacts.

(** *** The bill-of-materials editor *)

Section ComponentListFacts.

Lemma filter_index_sublist {A} (keep : nat -> bool) (l : list A) : forall i,
  filter_index keep i l `sublist_of` l.
Proof.
  induction l as [|x l IH]; intros i; cbn; [constructor|].
  destruct (keep i); constructor; apply IH.
Qed.

Lemma map_designator_insert (components : list component) index c c' :
  components !! index = Some c ->
  map designator (<[index := c']> components)
  = <[index := designator c']> (map designator components).
Proof. intros _. apply (list_fmap_insert designator). Qed.

Lemma NoDup_insert_iff {A} (l : list A) i x :
  (i < length l)%nat -> NoDup l ->
  NoDup (<[i := x]> l) <-> (forall j, j <> i -> l !! j <> Some x).
Proof.
  intros Hi Hl. split.
  - intros Hins j Hj Hlook.
    apply Hj. eapply (proj1 (NoDup_alt _) Hins).
    + rewrite list_lookup_insert_ne by congruence. exact Hlook.
    + apply list_lookup_insert_eq. exact Hi.
  - intros Hfree. apply NoDup_alt. intros a b y Ha Hb.
    apply list_lookup_insert_Some in Ha as [(-> & -> & _)|(Hai & Ha)];
      apply list_lookup_insert_Some in Hb as [(Hbi & Hxy & _)|(Hbi & Hb)].
    + exact Hbi.
    + exfalso. apply (Hfree b); congruence.
    + subst. exfalso. apply (Hfree a); congruence.
    + eapply (proj1 (NoDup_alt _) Hl); eassumption.
Qed.

(** C8, as the code has it: nothing checks that designators are unique.
    On a list with unique designators, deleting a row keeps them unique;
    editing a field other than the designator leaves every designator as
    it was; editing the designator of a row keeps them unique exactly when
    no other row has the new value; adding a component keeps them unique
    exactly when the generated designator, the letter C followed by the
    new length of the list, is not in use. *)
Theorem component_edits_and_designators (components : list component) :
  designators_unique components ->
  (forall index, designators_unique (handleDelete components index)) /\
  (forall index field value components',
      field <> "designator" ->
      handleChange components index field value = Some components' ->
      map designator components' = map designator components /\
      designators_unique components') /\
  (forall index value components',
      handleChange components index "designator" value = Some components' ->
      designators_unique components' <->
      forall j c, j <> index -> components !! j = Some c ->
                  designator c <> Some (JStr value)) /\
  (designators_unique (handleAdd components) <->
   ~ In (Some (JStr ("C" +:+ pretty (length components + 1)%nat)))
        (map designator components)).
Proof.
  unfold designators_unique. intros Hunique. split; [|split; [|split]].
  - intros index. unfold handleDelete.
    eapply sublist_NoDup; [exact Hunique|].
    apply (fmap_sublist designator), filter_index_sublist.
  - intros index field value components' Hfield Hchange. unfold handleChange in Hchange.
    destruct (components !! index) as [c|] eqn:Hc; [|discriminate].
    injection Hchange as <-.
    assert (E : map designator (<[index := obj_set field (JStr value) c]> components)
                = map designator components).
    { rewrite (map_designator_insert _ _ c) by exact Hc.
      apply list_insert_id. change (map designator components) with (designator <$> components).
      rewrite list_lookup_fmap.
      replace (components !! index) with (Some c) by (symmetry; exact Hc).
      cbn. f_equal. unfold designator.
      symmetry. apply obj_get_set_ne. exact Hfield. }
    split; [exact E|]. rewrite E. exact Hunique.
  - intros index value components' Hchange. unfold handleChange in Hchange.
    destruct (components !! index) as [c|] eqn:Hc; [|discriminate].
    injection Hchange as <-.
    rewrite (map_designator_insert _ _ c) by exact Hc.
    unfold designator at 1. rewrite obj_get_set_eq.
    rewrite NoDup_insert_iff;
      [|rewrite length_map; eapply lookup_lt_Some; exact Hc|exact Hunique].
    change (map designator components) with (designator <$> components).
    split.
    + intros Hfree j c' Hj Hc' Heq. apply (Hfree j Hj).
      rewrite list_lookup_fmap.
      replace (components !! j) with (Some c') by (symmetry; exact Hc').
      cbn. congruence.
    + intros Hfree j Hj Hlook. rewrite list_lookup_fmap in Hlook.
      destruct (components !! j) as [c'|] eqn:Hc'; [|discriminate].
      cbn in Hlook. apply (Hfree j c' Hj Hc'). congruence.
  - unfold handleAdd. rewrite map_app. cbn [map]. unfold designator at 2. cbn [obj_get].
    rewrite String.eqb_refl, NoDup_app. split.
    + intros (_ & Hfresh & _) Hin. apply list_elem_of_In in Hin.
      apply (Hfresh _ Hin). left.
    + intros Hfresh. split; [exact Hunique|]. split.
      * intros x Hx Hx'. apply list_elem_of_singleton in Hx'. subst x.
        apply Hfresh, list_elem_of_In, Hx.
      * apply NoDup_singleton.
Qed.

End ComponentListFacts.

(** ** The properties on the sample documents *)






Lemma extraction_required_fields_witness :
  exists out,
    post_process lower_ascii sample_untitled = inr out /\
    get "title" out = None /\
    get "potentialIssues" out = None /\
    get "netlist" out = Some (JArr []).
Proof.
  destruct (extraction_required_fields lower_ascii (fun _ => Parsed sample_untitled)
              "data:image/png;base64,BOARD" world0 sample_untitled eq_refl)
    as (_ & Hiff & _ & Hkeep).
  destruct (proj2 Hiff eq_refl) as [out Hout]. exists out.
  destruct (Hkeep out Hout) as [Hfields Hnetlist].
  split; [exact Hout|]. split; [|split].
  - rewrite Hfields by (cbn; tauto). reflexivity.
  - rewrite Hfields by (cbn; tauto). reflexivity.
  - apply Hnetlist. reflexivity.
Defined.

(** A response without a title is accepted, and no title is made up. *)
Lemma missing_title_counterexample :
  get "title" sample_untitled = None /\
  exists out,
    fst (analyzeSchematicImage lower_ascii (fun _ => Parsed sample_untitled)
           "data:image/png;base64,BOARD" world0) = inr out /\
    get "title" out = None.
Proof. split; [reflexivity|]. eexists. split; reflexivity. Qed.

Lemma post_processing_frame_witness :
  exists out w',
    analyzeSchematicImage lower_ascii extract_ok "data:image/png;base64,BOARD" world0
    = (inr out, w') /\
    length (components_of out) = 2%nat /\
    get "title" out = Some (JStr "Voltage follower") /\
    get "netlist" out = get "netlist" sample_analysis.
Proof.
  eexists _, _. split; [vm_compute; reflexivity|].
  match goal with
  | |- length (components_of ?out) = _ /\ _ =>
      destruct (post_processing_frame lower_ascii extract_ok
                  "data:image/png;base64,BOARD" world0
                  (snd (analyzeSchematicImage lower_ascii extract_ok
                          "data:image/png;base64,BOARD" world0))
                  sample_analysis out eq_refl eq_refl)
        as (Hlen & _ & Hfields & _ & Hnets)
  end.
  split; [exact Hlen|]. split.
  - rewrite Hfields by discriminate. reflexivity.
  - erewrite Hnets by reflexivity. reflexivity.
Defined.





Lemma no_schematics_is_terminal_witness :
  let run := handleFileSelected lower_ascii classify_nothing extract_ok sample_uuid
               sample_pdf (app0, world0) in
  status (fst (snd run)) = Status.error /\
  error (fst (snd run)) = Some "No schematics or wiring diagrams detected in this file." /\
  pages (fst (snd run)) = [] /\
  calls (snd (snd run)) =
    [ ClassifyCall "gemini-2.5-flash"
        [Some "PAGE0"; Some "PAGE1"; Some "PAGE2"; Some "PAGE3"; Some "PAGE4"];
      ClassifyCall "gemini-2.5-flash" [Some "PAGE5"; Some "PAGE6"; Some "PAGE7"] ].
Proof.
  intros run.
  destruct (no_schematics_is_terminal lower_ascii classify_nothing extract_ok sample_uuid
              sample_pdf app0 world0
              (snd (detectSchematicPages classify_nothing sample_images world0))
              sample_images)
    as (s' & Hrun & Hstatus & Herror & Hpages);
    [reflexivity | vm_compute; reflexivity |].
  subst run. rewrite Hrun. cbn [fst snd].
  split; [exact Hstatus|]. split; [exact Herror|]. split; [exact Hpages|]. reflexivity.
Defined.

Lemma component_edits_and_designators_witness :
  designators_unique (handleDelete sample_components 0) /\
  designators_unique (handleAdd sample_components).
Proof.
  destruct (component_edits_and_designators sample_components)
    as (Hdelete & _ & _ & Hadd).
  - unfold designators_unique. cbn.
    constructor; [rewrite not_elem_of_cons; split; [discriminate|apply not_elem_of_nil]|].
    constructor; [apply not_elem_of_nil|constructor].
  - split; [apply Hdelete|]. apply Hadd. vm_compute.
    intros [H|[H|H]]; [discriminate H|discriminate H|exact H].
Defined.

(** Deleting the first of two components and adding one gives C2 twice. *)
Lemma add_after_delete_counterexample :
  designators_unique sample_components /\
  map designator (handleAdd (handleDelete sample_components 0))
  = [Some (JStr "C2"); Some (JStr "C2")] /\
  ~ designators_unique (handleAdd (handleDelete sample_components 0)).
Proof.
  split; [|split; [reflexivity|]].
  - unfold designators_unique. cbn.
    constructor; [rewrite not_elem_of_cons; split; [discriminate|apply not_elem_of_nil]|].
    constructor; [apply not_elem_of_nil|constructor].
  - unfold designators_unique.
    change (map designator (handleAdd (handleDelete sample_components 0)))
      with [Some (JStr "C2"); Some (JStr "C2")].
    intros H. apply NoDup_cons in H as [H _]. apply H. left.
Qed.

(** ** Further properties of the services *)

Section ServiceFacts.

Variable toLowerCase : string -> string.
Variable classifyReply : nat -> BatchReply.
Variable extractReply : nat -> Reply.

(** *** pdfService.ts *)

Lemma render_pages_spec (todo : list PageRender) : forall images,
  render_pages todo images =
  match first_failure todo with
  | Some e => inl e
  | None => inr (images ++ page_images todo)
  end.
Proof.
  induction todo as [|[e| |base64] todo IH]; intros images; cbn.
  - rewrite app_nil_r. reflexivity.
  - reflexivity.
  - apply IH.
  - rewrite IH. destruct (first_failure todo); [reflexivity|].
    rewrite <- app_assoc. reflexivity.
Qed.

Lemma take_min_length {A} (l : list A) n : take (Nat.min (length l) n) l = take n l.
Proof.
  destruct (Nat.le_ge_cases (length l) n) as [H|H].
  - rewrite Nat.min_l by exact H. rewrite !take_ge by lia. reflexivity.
  - rewrite Nat.min_r by exact H. reflexivity.
Qed.

Lemma page_images_length (doc : list PageRender) :
  (length (page_images doc) <= length doc)%nat.
Proof. induction doc as [|[e| |base64] doc IH]; cbn; lia. Qed.

Lemma convertPdfToImages_run (file : File) (doc : list PageRender) :
  pdf file = inr doc ->
  convertPdfToImages file =
  match first_failure (take 20 doc) with
  | Some e => inl e
  | None => inr (page_images (take 20 doc))
  end.
Proof.
  intros Hdoc. unfold convertPdfToImages. rewrite Hdoc, take_min_length.
  apply render_pages_spec.
Qed.

(** X1: for a document that opens, the rasterizer fails with the exception
    of the first of the first 20 pages whose rendering throws; when none
    of them throws it returns, in page order, the data URLs of those of
    the first 20 pages that have a canvas context: pages without one are
    left out, not reported. *)
Theorem rasterizer_result (file : File) (doc : list PageRender) :
  pdf file = inr doc ->
  convertPdfToImages file =
  match first_failure (take 20 doc) with
  | Some e => inl e
  | None => inr (page_images (take 20 doc))
  end.
Proof. apply convertPdfToImages_run. Qed.

(** X2: the rasterizer never returns more than 20 images, nor more images
    than the document has pages. *)
Theorem rasterizer_page_cap (file : File) (images : list string) :
  convertPdfToImages file = inr images ->
  (length images <= 20)%nat /\
  forall doc, pdf file = inr doc -> (length images <= length doc)%nat.
Proof.
  intros Hrun.
  destruct (pdf file) as [e|doc] eqn:Hdoc.
  - unfold convertPdfToImages in Hrun. rewrite Hdoc in Hrun. discriminate Hrun.
  - rewrite (convertPdfToImages_run file doc Hdoc) in Hrun.
    destruct (first_failure (take 20 doc)); [discriminate Hrun|].
    injection Hrun as <-.
    pose proof (page_images_length (take 20 doc)) as Hlen.
    rewrite length_take in Hlen. split; [lia|].
    intros doc' Hdoc'. injection Hdoc' as <-. lia.
Qed.

(** X3: pages after the 20th play no part: whatever follows them in the
    document, even pages whose rendering would throw, the result is the
    same. *)
Theorem rasterizer_ignores_later_pages (file : File) (doc extra : list PageRender) :
  pdf file = inr doc ->
  (20 <= length doc)%nat ->
  convertPdfToImages (mkFile (name file) (type file) (inr (doc ++ extra)) (dataURL file))
  = convertPdfToImages file.
Proof.
  intros Hdoc Hlen.
  rewrite (convertPdfToImages_run file doc Hdoc).
  rewrite (convertPdfToImages_run
             (mkFile (name file) (type file) (inr (doc ++ extra)) (dataURL file))
             (doc ++ extra) eq_refl).
  rewrite take_app_le by exact Hlen. reflexivity.
Qed.

(** *** geminiService.ts *)

Lemma until_comma_no_comma (s rest : string) :
  no_comma s = true -> until_comma (s +:+ String "," rest) = s.
Proof.
  induction s as [|c s IH]; [reflexivity|].
  change (String c s +:+ String "," rest) with (String c (s +:+ String "," rest)).
  cbn [until_comma no_comma].
  destruct (Ascii.eqb c ","); cbn; [discriminate|].
  intros H. rewrite IH by exact H. reflexivity.
Qed.

Lemma until_comma_id (s : string) : no_comma s = true -> until_comma s = s.
Proof.
  induction s as [|c s IH]; cbn; [reflexivity|].
  destruct (Ascii.eqb c ","); cbn; [discriminate|].
  intros H. rewrite IH by exact H. reflexivity.
Qed.

Lemma split_comma_1_header (header rest : string) :
  no_comma header = true ->
  split_comma_1 (header +:+ String "," rest) = Some (until_comma rest).
Proof.
  induction header as [|c header IH].
  - reflexivity.
  - change (String c header +:+ String "," rest)
      with (String c (header +:+ String "," rest)).
    cbn [split_comma_1 no_comma].
    destruct (Ascii.eqb c ","); cbn; [discriminate|]. exact IH.
Qed.

Lemma split_comma_1_none (s : string) : no_comma s = true -> split_comma_1 s = None.
Proof.
  induction s as [|c s IH]; cbn; [reflexivity|].
  destruct (Ascii.eqb c ","); cbn; [discriminate|]. exact IH.
Qed.

(** X4: for a data URL, a header without comma followed by a comma and a
    payload that is not empty and has no comma, the extractor sends the
    payload alone. *)
Theorem cleanBase64_strips_header (header payload : string) :
  no_comma header = true ->
  no_comma payload = true ->
  payload <> "" ->
  cleanBase64 (header +:+ String "," payload) = payload.
Proof.
  intros Hheader Hpayload Hne. unfold cleanBase64.
  rewrite split_comma_1_header by exact Hheader.
  rewrite until_comma_id by exact Hpayload.
  apply String.eqb_neq in Hne. rewrite Hne. reflexivity.
Qed.

(** X5: a string without comma is sent whole, and what is sent is empty
    only when the image string itself is empty: an empty payload after the
    comma makes the extractor fall back to the whole string. *)
Theorem cleanBase64_fallback (base64Image : string) :
  (no_comma base64Image = true -> cleanBase64 base64Image = base64Image) /\
  (cleanBase64 base64Image = "" <-> base64Image = "").
Proof.
  split.
  - intros H. unfold cleanBase64. rewrite split_comma_1_none by exact H. reflexivity.
  - unfold cleanBase64. split.
    + destruct (split_comma_1 base64Image) as [data|]; [|auto].
      destruct (String.eqb_spec data ""); [auto|congruence].
    + intros ->. reflexivity.
Qed.

Lemma concat_batches (images : list string) (k : nat) :
  concat (map (batch_at images) (seq 0 k)) = take (k * BATCH_SIZE) images.
Proof.
  induction k as [|k IH]; [reflexivity|].
  rewrite seq_S, map_app, concat_app, IH. cbn [map concat Nat.add].
  rewrite app_nil_r. unfold batch_at.
  rewrite take_take_drop. f_equal. lia.
Qed.

(** X6: when the document is batched, the requests of the classifier
    carry every page image exactly once and in page order, in batches of
    at least one and at most [BATCH_SIZE] images; the classifier draws no
    identifier. *)
Theorem classification_batches_cover_images (images : list string) (w : World) :
  length images <> 1%nat ->
  exists result w' batches,
    detectSchematicPages classifyReply images w = (inr result, w') /\
    calls w' = calls w ++ map (ClassifyCall "gemini-2.5-flash") batches /\
    concat batches = map split_comma_1 images /\
    Forall (fun batch => (1 <= length batch <= BATCH_SIZE)%nat) batches /\
    uuids w' = uuids w.
Proof.
  intros Hn.
  exists (flat_map (fun j => contribution (classifyReply (length (calls w) + j))
                                          (j * BATCH_SIZE))
                   (seq 0 (batch_count (length images)))).
  eexists.
  exists (map (fun j => map split_comma_1 (batch_at images j))
              (seq 0 (batch_count (length images)))).
  split; [apply detectSchematicPages_run; exact Hn|]. cbn [calls uuids].
  split; [|split; [|split; [|reflexivity]]].
  - rewrite map_map. reflexivity.
  - rewrite <- (map_map (batch_at images) (map split_comma_1)), <- concat_map.
    rewrite concat_batches, take_ge; [reflexivity|]. apply batch_count_reached.
  - apply List.Forall_forall. intros batch Hin.
    apply in_map_iff in Hin as (j & <- & Hj). apply in_seq in Hj.
    rewrite length_map. unfold batch_at. rewrite length_take, length_drop.
    assert (j * BATCH_SIZE < length images)%nat by (apply batch_count_inside; lia).
    unfold BATCH_SIZE in *. lia.
Qed.

(** X7: whatever the type of a component, its derived icon is one of the
    keys of [COMPONENT_ICONS], so the bill of materials always finds an
    icon for it. *)
Theorem derived_icon_has_renderer (type : string) :
  In (mapTypeToIcon toLowerCase type) COMPONENT_ICONS.
Proof.
  unfold mapTypeToIcon, COMPONENT_ICONS. cbn zeta.
  generalize (toLowerCase type). intros t.
  repeat match goal with
         | |- context [includes t ?kw] =>
             destruct (includes t kw); cbn [orb]; try (cbn; tauto)
         end.
Qed.

(** X8: whatever the backend replies, a call of the extractor sends exactly
    one request, for the cleaned image data, and draws no identifier; a
    rejected request or unparsable text fails with the backend's own
    exception, an empty reply with the message that no response text was
    generated. *)
Theorem extraction_sends_one_request (base64Image : string) (w : World) :
  exists outcome,
    analyzeSchematicImage toLowerCase extractReply base64Image w =
    (outcome,
     mkWorld (calls w ++ [ExtractCall "gemini-3-pro-preview" (cleanBase64 base64Image)])
             (uuids w)) /\
    (forall e, extractReply (length (calls w)) = Rejected e -> outcome = inl e) /\
    (forall e, extractReply (length (calls w)) = BadJson e -> outcome = inl e) /\
    (extractReply (length (calls w)) = NoText ->
     outcome = inl (Error "No response text generated")).
Proof.
  eexists. split; [apply analyzeSchematicImage_run|].
  repeat split; intros; match goal with H : _ = _ |- _ => rewrite H end; reflexivity.
Qed.

Lemma obj_set_same k v props : obj_get k props = Some v -> obj_set k v props = props.
Proof.
  induction props as [|[k' v'] props IH]; cbn; [discriminate|].
  destruct (String.eqb k k'); [congruence|].
  intros H. rewrite IH by exact H. reflexivity.
Qed.

Lemma obj_set_twice k v v' props : obj_set k v (obj_set k v' props) = obj_set k v props.
Proof.
  induction props as [|[k0 v0] props IH]; cbn.
  - rewrite String.eqb_refl. reflexivity.
  - destruct (String.eqb k k0) eqn:E; cbn; rewrite E; [reflexivity|].
    rewrite IH. reflexivity.
Qed.

Lemma with_icon_again c c' :
  with_icon toLowerCase c = inr c' -> with_icon toLowerCase c' = inr c'.
Proof.
  intros H. apply with_icon_inr in H as (props & type & -> & Htype & ->).
  unfold with_icon. rewrite obj_get_set_ne by discriminate. rewrite Htype.
  rewrite obj_set_twice. reflexivity.
Qed.

Lemma map_with_icon_again cs : forall cs',
  map_with_icon toLowerCase cs = inr cs' -> map_with_icon toLowerCase cs' = inr cs'.
Proof.
  induction cs as [|c cs IH]; intros cs' H; cbn in H.
  - injection H as <-. reflexivity.
  - destruct (with_icon toLowerCase c) as [e|c1] eqn:Ec; [discriminate|].
    destruct (map_with_icon toLowerCase cs) as [e|cs1] eqn:Ecs; [discriminate|].
    injection H as <-. cbn.
    rewrite (with_icon_again c c1 Ec), (IH cs1 eq_refl). reflexivity.
Qed.

Lemma backfill_netlist_truthy props :
  truthy_opt (obj_get "netlist" (backfill_netlist props)) = true.
Proof.
  unfold backfill_netlist.
  destruct (truthy_opt (obj_get "netlist" props)) eqn:E; cbn; [exact E|].
  rewrite obj_get_set_eq. reflexivity.
Qed.

(** X9: post-processing is idempotent: applied to an analysis that it
    returned, it returns that analysis unchanged. *)
Theorem post_process_idempotent (analysis out : json) :
  post_process toLowerCase analysis = inr out ->
  post_process toLowerCase out = inr out.
Proof.
  intros H. apply post_process_inr in H as (props & cs & cs' & -> & _ & Hmap & ->).
  unfold post_process.
  rewrite get_backfill_netlist_ne, obj_get_set_eq by discriminate.
  rewrite (map_with_icon_again cs cs' Hmap).
  rewrite (obj_set_same "components" (JArr cs'))
    by (rewrite get_backfill_netlist_ne, obj_get_set_eq by discriminate; reflexivity).
  unfold backfill_netlist at 1. rewrite backfill_netlist_truthy. reflexivity.
Qed.

End ServiceFacts.

(** ** Further properties of the orchestrator *)

Section OrchestratorFacts.

Variable toLowerCase : string -> string.
Variable classifyReply : nat -> BatchReply.
Variable extractReply : nat -> Reply.
Variable randomUUID : nat -> string.

Local Abbreviation run :=
  (handleFileSelected toLowerCase classifyReply extractReply randomUUID).
Local Abbreviation whole := (pipeline toLowerCase classifyReply extractReply randomUUID).
Local Abbreviation extract_all := (analyze_all toLowerCase extractReply randomUUID).

Ltac run_final :=
  try match goal with e : exn |- _ => destruct e end;
  cbv beta iota delta [fst snd]; eexists; reflexivity.

(** Every field of the state is written by the run. *)
Lemma handleFileSelected_final file s w :
  exists progress,
    run file (s, w)
    = (handler_outcome (fst (whole file w)),
       (final_state (name file) (stalled file) progress (fst (whole file w)),
        snd (whole file w))).
Proof.
  unfold handleFileSelected, pipeline, loadImages, stalled, readImages.
  unfold try_catch, bind, io, app, throw, ret, of_result.
  cbv beta iota delta [fst snd].
  destruct (String.eqb (type file) "application/pdf").
  - destruct (convertPdfToImages file) as [e|images];
      cbv beta iota delta [fst snd throw ret]; [run_final|].
    destruct (detectSchematicPages_never_throws classifyReply images w)
      as (idxs & w1 & ->).
    destruct (length idxs =? 0)%nat; [run_final|].
    match goal with
    | |- context [analyze_loop _ _ _ _ ?t ?r ?i ?res (?s', ?w')] =>
        destruct (analyze_loop_run toLowerCase extractReply randomUUID
                    images t r i res s' w') as [m Hm]; rewrite Hm
    end.
    destruct (extract_all images idxs w1) as [[e|rs] w2]; run_final.
  - cbv beta iota delta [fst snd throw ret].
    destruct (detectSchematicPages_never_throws classifyReply [dataURL file] w)
      as (idxs & w1 & ->).
    destruct (length idxs =? 0)%nat; [run_final|].
    match goal with
    | |- context [analyze_loop _ _ _ _ ?t ?r ?i ?res (?s', ?w')] =>
        destruct (analyze_loop_run toLowerCase extractReply randomUUID
                    [dataURL file] t r i res s' w') as [m Hm]; rewrite Hm
    end.
    destruct (extract_all [dataURL file] idxs w1) as [[e|rs] w2]; run_final.
Qed.

Lemma extract_all_ids images idxs : forall rs w1 w2,
  extract_all images idxs w1 = (inr rs, w2) ->
  length rs = length idxs /\
  map id rs = map randomUUID (seq (uuids w1) (length rs)) /\
  uuids w2 = (uuids w1 + length rs)%nat.
Proof.
  induction idxs as [|idx idxs IH]; intros rs w1 w2 H.
  - cbn in H. injection H as <- <-. cbn. auto with lia.
  - cbn [analyze_all] in H.
    destruct (lookupZ images idx) as [imageData|]; [|discriminate H].
    unfold bind in H.
    destruct (analyzeSchematicImage toLowerCase extractReply imageData w1)
      as [[e|analysis] wa] eqn:Ea; [discriminate H|].
    rewrite analyzeSchematicImage_run in Ea. injection Ea as _ <-.
    unfold crypto_randomUUID at 1 in H. cbn [calls uuids] in H.
    match type of H with
    | context [analyze_all _ _ _ _ _ ?wb] =>
        destruct (extract_all images idxs wb) as [[e|rs'] wc] eqn:Erest; [discriminate H|]
    end.
    injection H as <- <-.
    destruct (IH _ _ _ Erest) as (Hlen & Hids & Huuids). cbn [uuids] in Hids, Huuids.
    cbn [length map id seq]. repeat split.
    + f_equal. exact Hlen.
    + f_equal. exact Hids.
    + lia.
Qed.

Lemma detectSchematicPages_uuids images w :
  uuids (snd (detectSchematicPages classifyReply images w)) = uuids w.
Proof.
  destruct (Nat.eq_dec (length images) 1%nat) as [E1|Hn].
  - destruct images as [|img [|? ?]]; try discriminate E1. reflexivity.
  - rewrite detectSchematicPages_run by exact Hn. reflexivity.
Qed.

(** What a run that returns page results has done. *)
Lemma pipeline_inr file w rs w' :
  whole file w = (inr rs, w') ->
  exists images idxs w1,
    readImages file = inr images /\
    detectSchematicPages classifyReply images w = (inr idxs, w1) /\
    idxs <> [] /\
    extract_all images idxs w1 = (inr rs, w').
Proof.
  unfold pipeline, bind, of_result. intros H.
  destruct (readImages file) as [e|images] eqn:Eread; [discriminate H|].
  unfold ret at 1 in H.
  destruct (detectSchematicPages classifyReply images w) as [[e|idxs] w1] eqn:Edetect;
    [discriminate H|].
  destruct idxs as [|idx idxs]; [discriminate H|].
  cbn [length Nat.eqb] in H. unfold ret at 1 in H.
  exists images, (idx :: idxs), w1.
  split; [reflexivity|]. split; [exact Edetect|]. split; [discriminate|exact H].
Qed.









(** X11: a run does not depend on the state the component was in: started
    for the same file in the same world from any two states, it ends in
    the same state and the same world. *)
Theorem run_forgets_previous_state (file : File) (s1 s2 : AppState) (w : World) :
  run file (s1, w) = run file (s2, w).
Proof.
  unfold handleFileSelected. unfold bind at 1 2 3 4. unfold app at 1 2 3 4.
  cbv beta iota delta [fst snd]. reflexivity.
Qed.

(** X12: when the file cannot be turned into page images (the PDF does not
    open, or the rendering of one of its first 20 pages throws), the run
    keeps no page and sends no request to the backend.  For a thrown value
    other than [undefined] and [null] it ends in the error state with the
    message of that value, or the fallback text when the message is empty.
    For a thrown [undefined] or [null] the handler throws in its turn: the
    run is rejected, the status stays [rendering_pdf] and no error text is
    set. *)
Theorem rasterization_failure_sends_nothing (file : File) (s : AppState) (w : World)
    (e : exn) :
  readImages file = inl e ->
  exists s',
    pages s' = [] /\
    match e with
    | Error message =>
        run file (s, w) = (inr tt, (s', w)) /\
        status s' = Status.error /\
        error s' = Some (or_else message "Failed to process file.")
    | Thrown_undefined =>
        run file (s, w) = (inl (TypeError_read "undefined" "message"), (s', w)) /\
        status s' = Status.rendering_pdf /\
        error s' = None
    | Thrown_null =>
        run file (s, w) = (inl (TypeError_read "null" "message"), (s', w)) /\
        status s' = Status.rendering_pdf /\
        error s' = None
    end.
Proof.
  intros Hread.
  destruct (handleFileSelected_final file s w) as [progress Hrun].
  assert (Hwhole : whole file w = (inl e, w)).
  { unfold pipeline, bind, of_result. rewrite Hread. reflexivity. }
  rewrite Hwhole in Hrun. unfold stalled in Hrun. rewrite Hread in Hrun.
  eexists. destruct e as [message| |]; cbn [fst snd handler_outcome] in Hrun;
    (split; [|split; [exact Hrun|]]); repeat split.
Qed.


(** X14: each page result of a run carries the identifier drawn for it:
    the page results, in their order, have the identifiers that
    [crypto.randomUUID] gave from the start of the run on; so they are
    pairwise distinct whenever the identifiers drawn are. *)
Theorem page_ids_are_the_draws (file : File) (s s' : AppState) (w w' : World) :
  run file (s, w) = (inr tt, (s', w')) ->
  map id (pages s') = map randomUUID (seq (uuids w) (length (pages s'))) /\
  ((forall a b, randomUUID a = randomUUID b -> a = b) -> NoDup (map id (pages s'))).
Proof.
  intros Hrun.
  destruct (handleFileSelected_final file s w) as [progress Hfinal].
  rewrite Hrun in Hfinal. injection Hfinal as _ -> ->.
  assert (Hids : map id (pages (final_state (name file) (stalled file) progress
                                  (fst (whole file w))))
                 = map randomUUID
                     (seq (uuids w)
                        (length (pages (final_state (name file) (stalled file) progress
                                          (fst (whole file w))))))).
  { destruct (whole file w) as [[e|rs] w2] eqn:Ewhole; cbn [fst snd final_state pages].
    - destruct e; reflexivity.
    - apply pipeline_inr in Ewhole as (images & idxs & w1 & _ & Hdetect & _ & Hall).
      pose proof (detectSchematicPages_uuids images w) as Hu.
      rewrite Hdetect in Hu. cbn [snd] in Hu.
      apply extract_all_ids in Hall as (_ & Hids & _).
      rewrite Hu in Hids. exact Hids. }
  split; [exact Hids|].
  intros Hinj. rewrite Hids. apply NoDup_fmap_2; [exact Hinj|apply NoDup_seq].
Qed.

End OrchestratorFacts.

(** ** The further properties on the sample documents *)

Lemma rasterizer_result_witness :
  convertPdfToImages sample_pdf = inr sample_images.
Proof. exact (rasterizer_result sample_pdf (map Rendered sample_images) eq_refl). Defined.

Lemma rasterizer_page_cap_witness :
  (length (page_images sample_first_20) <= 20)%nat.
Proof.
  apply (rasterizer_page_cap sample_manual_20 (page_images sample_first_20)).
  reflexivity.
Defined.

Lemma rasterizer_ignores_later_pages_witness :
  convertPdfToImages
    (mkFile "manual-20.pdf" "application/pdf" (inr (sample_first_20 ++ sample_after_20)) "")
  = convertPdfToImages sample_manual_20.
Proof.
  apply (rasterizer_ignores_later_pages sample_manual_20 sample_first_20 sample_after_20).
  - reflexivity.
  - cbn. lia.
Defined.

Lemma cleanBase64_strips_header_witness :
  cleanBase64 "data:image/png;base64,BOARD" = "BOARD".
Proof.
  apply (cleanBase64_strips_header "data:image/png;base64" "BOARD").
  - reflexivity.
  - reflexivity.
  - discriminate.
Defined.

Lemma classification_batches_cover_images_witness :
  exists batches,
    concat batches = map split_comma_1 sample_images /\
    Forall (fun batch => (1 <= length batch <= BATCH_SIZE)%nat) batches.
Proof.
  destruct (classification_batches_cover_images classify_first_fails sample_images world0)
    as (result & w' & batches & _ & _ & Hcover & Hsizes & _).
  - cbn. lia.
  - exists batches. split; assumption.
Defined.

Lemma post_process_idempotent_witness :
  exists out,
    post_process lower_ascii sample_analysis = inr out /\
    post_process lower_ascii out = inr out.
Proof.
  eexists. split; [vm_compute; reflexivity|].
  apply (post_process_idempotent lower_ascii sample_analysis). vm_compute. reflexivity.
Defined.

Lemma rasterization_failure_sends_nothing_witness :
  (exists s',
     handleFileSelected lower_ascii classify_ascending extract_ok sample_uuid
       sample_broken_pdf (app0, world0) = (inr tt, (s', world0)) /\
     status s' = Status.error /\
     error s' = Some "Invalid PDF structure" /\
     pages s' = []) /\
  (exists s',
     handleFileSelected lower_ascii classify_ascending extract_ok sample_uuid
       sample_unloadable_pdf (app0, world0)
     = (inl (TypeError_read "null" "message"), (s', world0)) /\
     status s' = Status.rendering_pdf /\
     error s' = None /\
     pages s' = []).
Proof.
  split.
  - destruct (rasterization_failure_sends_nothing lower_ascii classify_ascending extract_ok
                sample_uuid sample_broken_pdf app0 world0 (Error "Invalid PDF structure"))
      as (s' & Hpages & Hrun & Hstatus & Herror).
    + reflexivity.
    + exists s'. repeat split; assumption.
  - destruct (rasterization_failure_sends_nothing lower_ascii classify_ascending extract_ok
                sample_uuid sample_unloadable_pdf app0 world0 Thrown_null)
      as (s' & Hpages & Hrun & Hstatus & Herror).
    + reflexivity.
    + exists s'. repeat split; assumption.
Defined.


Lemma page_ids_are_the_draws_witness :
  let final := handleFileSelected lower_ascii classify_ascending extract_ok sample_uuid
                 sample_pdf (app0, world0) in
  map id (pages (fst (snd final))) = ["uuid-0"; "uuid-1"].
Proof.
  intros final.
  destruct (page_ids_are_the_draws lower_ascii classify_ascending extract_ok sample_uuid
              sample_pdf app0 (fst (snd final)) world0 (snd (snd final)))
    as [Hids _].
  - vm_compute. reflexivity.
  - rewrite Hids. vm_compute. reflexivity.
Defined.
